(** * The link-list accessor of realm-js: [src/list.cpp]

    [List] wraps a link view it does not own ([m_link_view]) and exposes
    [size], [get] and [set], guarded by [verify_valid_row], plus the separate
    [verify_attached].  The link view itself (realm core's [LinkView]) is an
    external collaborator: it is kept abstract, as an interface, and every
    call the accessor makes on it is recorded together with the state of the
    link view at the moment of the call. *)

From Stdlib Require Import PeanoNat NArith List String Ascii Bool Lia.
From Stdlib Require Import DecimalString DecimalN.
Import ListNotations.

Local Open Scope N_scope.

(** ** Values of the C++ side *)

(** [std::size_t]: an unsigned index.  The code only compares indices and
    prints them, there is no arithmetic on them, hence no wrap-around to
    write out; negative values are excluded by the type. *)
Definition size_t : Type := N.

(** [std::to_string] on a [size_t]: decimal digits, no sign, no padding. *)
Definition to_string (n : size_t) : string :=
  NilEmpty.string_of_uint (N.to_uint n).

(** The two exception classes of [<stdexcept>] that the file throws, each
    carrying its [what()] message. *)
Inductive exception : Type :=
| out_of_range (what : string)
| runtime_error (what : string).

(** ** The collaborator: what [list.cpp] calls on [m_link_view] *)

(** [List] holds nothing but the pointer [m_link_view]; the state threaded
    through the model is the link view it points to, of type [LV].
    [size], [get] and [is_attached] are queries on the link view; [set] and
    [sync_if_needed] may change it; none of the five is taken to throw.
    [lv_get] is total here, its value at an index outside the view is
    whatever the collaborator would produce. *)
Class LinkView (LV Row : Type) : Type := {
  lv_size : LV -> size_t;
  lv_get : LV -> size_t -> Row;
  lv_set : LV -> size_t -> size_t -> LV;
  lv_is_attached : LV -> bool;
  lv_sync_if_needed : LV -> LV
}.

(** One call made through [m_link_view->...]. *)
Inductive call : Type :=
| call_size
| call_get (row_ndx : size_t)
| call_set (row_ndx target_row_ndx : size_t)
| call_is_attached
| call_sync_if_needed.

(** ** Executions: state of the link view, exceptions, log of calls *)

Inductive result (A : Type) : Type :=
| returns (a : A)
| throws (e : exception).
Arguments returns {A} a.
Arguments throws {A} e.

(** What one run leaves behind: its result, the link view afterwards and the
    calls it made on the link view, each with the link view it was made on. *)
Record outcome (LV A : Type) : Type := Outcome {
  res : result A;
  link_view : LV;
  calls : list (call * LV)
}.
Arguments Outcome {LV A} res link_view calls.
Arguments res {LV A} o.
Arguments link_view {LV A} o.
Arguments calls {LV A} o.

Definition exec (LV A : Type) : Type := LV -> outcome LV A.

Definition ret {LV A} (a : A) : exec LV A :=
  fun s => Outcome (returns a) s [].

Definition throw {LV A} (e : exception) : exec LV A :=
  fun s => Outcome (throws e) s [].

(** Sequencing: an exception skips the rest of the body. *)
Definition bind {LV A B} (m : exec LV A) (k : A -> exec LV B) : exec LV B :=
  fun s =>
    let o := m s in
    match res o with
    | returns a =>
        let o' := k a (link_view o) in
        Outcome (res o') (link_view o') (calls o ++ calls o')
    | throws e => Outcome (throws e) (link_view o) (calls o)
    end.

Declare Scope exec_scope.
Delimit Scope exec_scope with exec.
Notation "x <- m ;; k" := (bind m (fun x => k))
  (at level 61, m at next level, right associativity) : exec_scope.
Notation "m ;; k" := (bind m (fun _ => k))
  (at level 61, right associativity) : exec_scope.
Local Open Scope exec_scope.

(** The accessor's operations and what they hand back. *)
Inductive operation : Type :=
| op_size
| op_get (row_ndx : size_t)
| op_set (row_ndx target_row_ndx : size_t)
| op_verify_attached.

Inductive value (Row : Type) : Type :=
| val_size (n : size_t)
| val_row (r : Row)
| val_void.
Arguments val_size {Row} n.
Arguments val_row {Row} r.
Arguments val_void {Row}.

Section Accessor.

Context {LV Row : Type} {view : LinkView LV Row}.

(** *** Calls through [m_link_view] *)

Definition m_link_view_size : exec LV size_t :=
  fun s => Outcome (returns (lv_size s)) s [(call_size, s)].

Definition m_link_view_get (row_ndx : size_t) : exec LV Row :=
  fun s => Outcome (returns (lv_get s row_ndx)) s [(call_get row_ndx, s)].

Definition m_link_view_set (row_ndx target_row_ndx : size_t) : exec LV unit :=
  fun s => Outcome (returns tt) (lv_set s row_ndx target_row_ndx)
                   [(call_set row_ndx target_row_ndx, s)].

Definition m_link_view_is_attached : exec LV bool :=
  fun s => Outcome (returns (lv_is_attached s)) s [(call_is_attached, s)].

Definition m_link_view_sync_if_needed : exec LV unit :=
  fun s => Outcome (returns tt) (lv_sync_if_needed s) [(call_sync_if_needed, s)].

(** *** [list.cpp] *)

(** The [what()] text built in [verify_valid_row]. *)
Definition out_of_range_what (row_ndx size : size_t) : string :=
  ("Index " ++ to_string row_ndx ++ " is outside of range 0..."
     ++ to_string size ++ ".")%string.

(** [size_t List::size()] *)
Definition List_size : exec LV size_t :=
  m_link_view_size.

(** [void List::verify_valid_row(std::size_t row_ndx)];
    [row_ndx >= size] is [size <= row_ndx]. *)
Definition List_verify_valid_row (row_ndx : size_t) : exec LV unit :=
  size <- m_link_view_size ;;
  if size <=? row_ndx
  then throw (out_of_range (out_of_range_what row_ndx size))
  else ret tt.

(** [Row List::get(std::size_t row_ndx)] *)
Definition List_get (row_ndx : size_t) : exec LV Row :=
  List_verify_valid_row row_ndx ;;
  m_link_view_get row_ndx.

(** [void List::set(std::size_t row_ndx, std::size_t target_row_ndx)] *)
Definition List_set (row_ndx target_row_ndx : size_t) : exec LV unit :=
  List_verify_valid_row row_ndx ;;
  m_link_view_set row_ndx target_row_ndx.

(** [void List::verify_attached()] *)
Definition List_verify_attached : exec LV unit :=
  attached <- m_link_view_is_attached ;;
  (if negb attached
   then throw (runtime_error "Tableview is not attached")
   else ret tt) ;;
  m_link_view_sync_if_needed.

(** One entry point for the four operations. *)
Definition run (o : operation) : exec LV (value Row) :=
  match o with
  | op_size => n <- List_size ;; ret (val_size n)
  | op_get i => r <- List_get i ;; ret (val_row r)
  | op_set i t => List_set i t ;; ret val_void
  | op_verify_attached => List_verify_attached ;; ret val_void
  end.

(** *** Reading the log of calls *)

(** An indexed read or write is within the link view it is made on. *)
Definition call_in_bounds (c : call * LV) : Prop :=
  match fst c with
  | call_get i | call_set i _ => i < lv_size (snd c)
  | _ => True
  end.

(** The calls that belong to the attachment check. *)
Definition attachment_call (c : call * LV) : bool :=
  match fst c with
  | call_is_attached | call_sync_if_needed => true
  | _ => false
  end.

Definition write_call (c : call * LV) : bool :=
  match fst c with
  | call_set _ _ => true
  | _ => false
  end.

(** Something outside the accessor changes the link view between two of
    its operations; the accessor makes no call for it. *)
Definition external_mutation (f : LV -> LV) : exec LV unit :=
  fun s => Outcome (returns tt) (f s) [].

(** A caller making one operation after the other; the first exception
    ends the sequence, as it leaves the enclosing C++ block. *)
Fixpoint run_all (os : list operation) : exec LV (list (value Row)) :=
  match os with
  | [] => ret []
  | o :: rest =>
      v <- run o ;;
      vs <- run_all rest ;;
      ret (v :: vs)
  end.

(** The operations that only ask: [size] and [get]. *)
Definition asks_only (o : operation) : bool :=
  match o with
  | op_size | op_get _ => true
  | op_set _ _ | op_verify_attached => false
  end.

(** The calls that may change the link view. *)
Definition changing_call (c : call * LV) : bool :=
  match fst c with
  | call_set _ _ | call_sync_if_needed => true
  | _ => false
  end.

(** The calls that the bounds check and the indexed access make. *)
Definition indexing_call (c : call * LV) : bool :=
  match fst c with
  | call_size | call_get _ | call_set _ _ => true
  | _ => false
  end.

End Accessor.

(** ** Reading the message back *)

Definition is_digit (c : ascii) : bool :=
  (48 <=? N_of_ascii c) && (N_of_ascii c <=? 57).

Fixpoint all_digits (s : string) : bool :=
  match s with
  | EmptyString => true
  | String c r => is_digit c && all_digits r
  end.




(** ** The accessor in memory

    [m_link_view] is a pointer: each call of [list.cpp] on the link view
    goes through it.  A memory gives the link view at every address; only
    addresses of live link views are modelled, so there is no dangling
    [m_link_view] here. *)
Definition address : Type := nat.

Definition memory (LV : Type) : Type := address -> LV.

Definition store {LV} (a : address) (s : LV) (h : memory LV) : memory LV :=
  fun a' => if Nat.eqb a' a then s else h a'.

(** The accessor object: [list.cpp] uses the one member [m_link_view]. *)
Record List : Type := { m_link_view : address }.

(** [m_link_view->size()] and the other four calls, made by the accessor
    [l] in a memory: the link view at [m_link_view l] is asked, and written
    back where the call changes it. *)
Definition through {LV Row} {view : LinkView LV Row} (l : List)
  : LinkView (memory LV) Row := {|
  lv_size h := lv_size (h (m_link_view l));
  lv_get h i := lv_get (h (m_link_view l)) i;
  lv_set h i t :=
    store (m_link_view l) (lv_set (h (m_link_view l)) i t) h;
  lv_is_attached h := lv_is_attached (h (m_link_view l));
  lv_sync_if_needed h :=
    store (m_link_view l) (lv_sync_if_needed (h (m_link_view l))) h
|}.

(** ** A link view to run the accessor on

    A stand-in with the interface above, not realm core's own class, used
    for the concrete runs.  The links are the target row indices, in order; a row is identified by
    its index in the target table.  [deferred] holds content changed from
    outside that the view only takes over at its next [sync_if_needed]. *)
Record link_list : Type := LinkList {
  links : list size_t;
  attached : bool;
  deferred : option (list size_t)
}.

Fixpoint replace_at (n : nat) (t : size_t) (l : list size_t) : list size_t :=
  match l, n with
  | [], _ => []
  | _ :: r, O => t :: r
  | x :: r, S m => x :: replace_at m t r
  end.

#[export] Instance link_list_view : LinkView link_list size_t := {
  lv_size s := N.of_nat (List.length (links s));
  lv_get s i := nth (N.to_nat i) (links s) 0;
  lv_set s i t :=
    LinkList (replace_at (N.to_nat i) t (links s)) (attached s) (deferred s);
  lv_is_attached s := attached s;
  lv_sync_if_needed s :=
    match deferred s with
    | Some l => LinkList l (attached s) None
    | None => s
    end
}.

(** The view [[r0, r1, r2]] of the scenarios, with rows 10, 11 and 12. *)
Definition three_links : link_list := LinkList [10; 11; 12] true None.
Definition no_links : link_list := LinkList [] true None.
Definition detached_links : link_list := LinkList [10; 11; 12] false None.
Definition stale_links : link_list := LinkList [10; 11; 12] true (Some [10]).

(** Two memories that hold the three links at different addresses, among
    different neighbours, and an accessor bound to each. *)
Definition memory_one : memory link_list :=
  fun a => match a with O => three_links | _ => no_links end.
Definition list_one : List := {| m_link_view := 0%nat |}.

(** ** The scenarios, run *)

Example get_2_of_three :
  List_get 2 three_links
  = Outcome (returns 12) three_links
            [(call_size, three_links); (call_get 2, three_links)].
Proof. reflexivity. Qed.

Example get_3_of_three :
  List_get 3 three_links
  = Outcome (throws (out_of_range "Index 3 is outside of range 0...3."))
            three_links [(call_size, three_links)].
Proof. reflexivity. Qed.

Example get_0_of_none :
  res (List_get 0 no_links)
  = throws (out_of_range "Index 0 is outside of range 0...0.")
  /\ res (List_size no_links) = returns 0.
Proof. split; reflexivity. Qed.

Example set_then_get :
  res ((List_set 1 42 ;; List_get 1) three_links) = returns 42.
Proof. reflexivity. Qed.

Example verify_detached :
  List_verify_attached detached_links
  = Outcome (throws (runtime_error "Tableview is not attached"))
            detached_links [(call_is_attached, detached_links)].
Proof. reflexivity. Qed.

Example get_0_of_detached :
  res (List_get 0 detached_links) = returns 10
  /\ res (List_size detached_links) = returns 3.
Proof. split; reflexivity. Qed.

Example set_5_of_three :
  List_set 5 42 three_links
  = Outcome (throws (out_of_range "Index 5 is outside of range 0...3."))
            three_links [(call_size, three_links)].
Proof. reflexivity. Qed.

Example verify_then_size_of_stale :
  res (List_size stale_links) = returns 3
  /\ res ((List_verify_attached ;; List_size) stale_links) = returns 1.
Proof. split; reflexivity. Qed.

(** ** The message determines the index and the size *)

Lemma string_of_uint_digits (d : Decimal.uint) :
  all_digits (NilEmpty.string_of_uint d) = true.
Proof. induction d; simpl; trivial. Qed.

Lemma to_string_digits (n : size_t) : all_digits (to_string n) = true.
Proof. apply string_of_uint_digits. Qed.

Lemma to_string_inj (n m : size_t) : to_string n = to_string m -> n = m.
Proof.
  unfold to_string. intros E.
  apply (f_equal NilEmpty.uint_of_string) in E.
  rewrite !NilEmpty.usu in E.
  apply Unsigned.to_uint_inj. congruence.
Qed.

(** A run of digits followed by a character that is no digit ends where that
    character stands. *)
Lemma digits_then_stop (c : ascii) (a a' r r' : string) :
  is_digit c = false ->
  all_digits a = true -> all_digits a' = true ->
  (a ++ String c r)%string = (a' ++ String c r')%string ->
  a = a' /\ r = r'.
Proof.
  intros Hc. revert a'.
  induction a as [|x a IH]; intros [|x' a'] Ha Ha' E; simpl in *.
  - injection E as ->. split; reflexivity.
  - injection E as -> _. apply andb_prop in Ha' as [Hx _]. congruence.
  - injection E as -> _. apply andb_prop in Ha as [Hx _]. congruence.
  - injection E as <- E.
    apply andb_prop in Ha as [_ Ha]. apply andb_prop in Ha' as [_ Ha'].
    destruct (IH a' Ha Ha' E) as [-> ->]. split; reflexivity.
Qed.

Lemma out_of_range_what_inj (i n i' n' : size_t) :
  out_of_range_what i n = out_of_range_what i' n' -> i = i' /\ n = n'.
Proof.
  unfold out_of_range_what. simpl. intros E.
  injection E as E.
  apply digits_then_stop in E;
    [ | reflexivity | apply to_string_digits | apply to_string_digits ].
  destruct E as [Ei E]. simpl in E. injection E as E.
  apply digits_then_stop in E;
    [ | reflexivity | apply to_string_digits | apply to_string_digits ].
  destruct E as [En _].
  split; apply to_string_inj; assumption.
Qed.

(** ** What the message does not hold *)





(** ** What each member function does, path by path *)

Section Runs.

Context {LV Row : Type} {view : LinkView LV Row}.
Implicit Types (s : LV) (i t : size_t).

Lemma verify_valid_row_inside s i :
  i < lv_size s ->
  List_verify_valid_row i s = Outcome (returns tt) s [(call_size, s)].
Proof.
  intros Hi. unfold List_verify_valid_row, bind. cbn.
  apply N.leb_gt in Hi. rewrite Hi. reflexivity.
Qed.

Lemma verify_valid_row_outside s i :
  lv_size s <= i ->
  List_verify_valid_row i s
  = Outcome (throws (out_of_range (out_of_range_what i (lv_size s)))) s
            [(call_size, s)].
Proof.
  intros Hi. unfold List_verify_valid_row, bind. cbn.
  apply N.leb_le in Hi. rewrite Hi. reflexivity.
Qed.

Lemma get_inside s i :
  i < lv_size s ->
  List_get i s
  = Outcome (returns (lv_get s i)) s [(call_size, s); (call_get i, s)].
Proof.
  intros Hi. unfold List_get, bind.
  rewrite (verify_valid_row_inside s i Hi). reflexivity.
Qed.

Lemma get_outside s i :
  lv_size s <= i ->
  List_get i s
  = Outcome (throws (out_of_range (out_of_range_what i (lv_size s)))) s
            [(call_size, s)].
Proof.
  intros Hi. unfold List_get, bind.
  rewrite (verify_valid_row_outside s i Hi). reflexivity.
Qed.

Lemma set_inside s i t :
  i < lv_size s ->
  List_set i t s
  = Outcome (returns tt) (lv_set s i t) [(call_size, s); (call_set i t, s)].
Proof.
  intros Hi. unfold List_set, bind.
  rewrite (verify_valid_row_inside s i Hi). reflexivity.
Qed.

Lemma set_outside s i t :
  lv_size s <= i ->
  List_set i t s
  = Outcome (throws (out_of_range (out_of_range_what i (lv_size s)))) s
            [(call_size, s)].
Proof.
  intros Hi. unfold List_set, bind.
  rewrite (verify_valid_row_outside s i Hi). reflexivity.
Qed.

Lemma verify_attached_live s :
  lv_is_attached s = true ->
  List_verify_attached s
  = Outcome (returns tt) (lv_sync_if_needed s)
            [(call_is_attached, s); (call_sync_if_needed, s)].
Proof.
  intros Ha. unfold List_verify_attached, bind. cbn. rewrite Ha. reflexivity.
Qed.

Lemma verify_attached_gone s :
  lv_is_attached s = false ->
  List_verify_attached s
  = Outcome (throws (runtime_error "Tableview is not attached")) s
            [(call_is_attached, s)].
Proof.
  intros Ha. unfold List_verify_attached, bind. cbn. rewrite Ha. reflexivity.
Qed.

(** An index is inside the view or not. *)
Lemma inside_or_outside s i : i < lv_size s \/ lv_size s <= i.
Proof. apply N.lt_ge_cases. Qed.

End Runs.

Ltac by_bounds s i :=
  let Hi := fresh "Hi" in
  destruct (inside_or_outside s i) as [Hi | Hi];
  [ try rewrite (get_inside s i Hi); try rewrite (set_inside s i _ Hi)
  | try rewrite (get_outside s i Hi); try rewrite (set_outside s i _ Hi) ];
  cbn [res link_view calls].

Ltac by_attachment s :=
  let Ha := fresh "Ha" in
  destruct (lv_is_attached s) eqn:Ha;
  [ rewrite (verify_attached_live s Ha) | rewrite (verify_attached_gone s Ha) ];
  cbn [res link_view calls].

(** ** The properties of the accessor *)

Section Properties.

Context {LV Row : Type} {view : LinkView LV Row}.
Implicit Types (s : LV) (i t : size_t).

(** C1.  [get(i)] returns the link view's element at [i] exactly when
    [0 <= i < size]; at any other index it throws [out_of_range], and the
    message it carries determines the index asked for and the size seen,
    and nothing else fits it. *)
Theorem get_checks_bounds s i :
  (res (List_get i s) = returns (lv_get s i) <-> 0 <= i < lv_size s)
  /\ ((exists r, res (List_get i s) = returns r) <-> 0 <= i < lv_size s)
  /\ (~ 0 <= i < lv_size s ->
      res (List_get i s)
      = throws (out_of_range (out_of_range_what i (lv_size s))))
  /\ (forall i' n',
        out_of_range_what i' n' = out_of_range_what i (lv_size s) ->
        i' = i /\ n' = lv_size s).
Proof.
  assert (Hrange : 0 <= i < lv_size s <-> i < lv_size s) by lia.
  rewrite !Hrange. split; [ | split; [ | split ] ].
  - by_bounds s i; split; intros H; trivial; [discriminate H | lia].
  - by_bounds s i; split; intros H; eauto;
      [destruct H as [r Hr]; discriminate Hr | lia].
  - intros Hout. by_bounds s i; [lia | reflexivity].
  - intros i' n' E. apply out_of_range_what_inj in E. exact E.
Qed.

(** C2.  [set(i, t)] goes through exactly when [0 <= i < size] and throws
    [out_of_range] with [i] and the size otherwise; when it goes through,
    the one write made on the link view has [i] and [t] as given, for any
    [t] at all, and the link view is left as that write leaves it. *)
Theorem set_checks_bounds_only s i t :
  (res (List_set i t s) = returns tt <-> 0 <= i < lv_size s)
  /\ (0 <= i < lv_size s ->
      link_view (List_set i t s) = lv_set s i t
      /\ filter write_call (calls (List_set i t s)) = [(call_set i t, s)])
  /\ (~ 0 <= i < lv_size s ->
      res (List_set i t s)
      = throws (out_of_range (out_of_range_what i (lv_size s))))
  /\ (forall i' n',
        out_of_range_what i' n' = out_of_range_what i (lv_size s) ->
        i' = i /\ n' = lv_size s).
Proof.
  assert (Hrange : 0 <= i < lv_size s <-> i < lv_size s) by lia.
  rewrite !Hrange. split; [ | split; [ | split ] ].
  - by_bounds s i; split; intros H; trivial; [discriminate H | lia].
  - intros Hin. by_bounds s i; [split; reflexivity | lia].
  - intros Hout. by_bounds s i; [lia | reflexivity].
  - intros i' n' E. apply out_of_range_what_inj in E. exact E.
Qed.


(** C4.  Every indexed read and every indexed write that [get] and [set]
    make on the link view is inside it; such a call is only made after the
    size query of the bounds check, on the same link view, has found the
    index below the size. *)
Theorem delegated_calls_in_bounds s i t :
  Forall call_in_bounds (calls (List_get i s))
  /\ Forall call_in_bounds (calls (List_set i t s))
  /\ (forall c st, In (c, st) (calls (List_get i s)) -> c <> call_size ->
      c = call_get i /\ st = s /\ i < lv_size s
      /\ calls (List_get i s) = [(call_size, s); (call_get i, s)])
  /\ (forall c st, In (c, st) (calls (List_set i t s)) -> c <> call_size ->
      c = call_set i t /\ st = s /\ i < lv_size s
      /\ calls (List_set i t s) = [(call_size, s); (call_set i t, s)]).
Proof.
  by_bounds s i; repeat apply conj;
    try (repeat constructor; assumption);
    intros c st Hin Hc; simpl in Hin;
    repeat (destruct Hin as [Hin | Hin];
            [injection Hin as <- <- | ]);
    try contradiction; try congruence; auto.
Qed.

(** C5.  [verify_attached] throws exactly when the link view is detached,
    and what it throws then is the [runtime_error], which is no
    [out_of_range]; it calls [sync_if_needed] exactly when the link view is
    attached, and [is_attached] is always the first call it makes. *)
Theorem verify_attached_gate s :
  (res (List_verify_attached s)
   = throws (runtime_error "Tableview is not attached")
   <-> lv_is_attached s = false)
  /\ ((exists e, res (List_verify_attached s) = throws e)
      <-> lv_is_attached s = false)
  /\ (forall what,
        runtime_error "Tableview is not attached" <> out_of_range what)
  /\ (In call_sync_if_needed (map fst (calls (List_verify_attached s)))
      <-> lv_is_attached s = true)
  /\ calls (List_verify_attached s)
     = (call_is_attached, s)
         :: (if lv_is_attached s then [(call_sync_if_needed, s)] else []).
Proof.
  split; [ | split; [ | split; [ | split ] ] ].
  - by_attachment s; split; intros H; trivial; discriminate H.
  - by_attachment s; split; intros H; eauto;
      [destruct H as [e He]; discriminate He | discriminate H].
  - intros what H. discriminate H.
  - by_attachment s; simpl; split; intros H; auto;
      [ destruct H as [H | []]; discriminate H | discriminate H ].
  - destruct (lv_is_attached s) eqn:Ha.
    + rewrite (verify_attached_live s Ha). reflexivity.
    + rewrite (verify_attached_gone s Ha). reflexivity.
Qed.

(** C6.  A [set] that throws has made no write on the link view and
    leaves it as it was. *)
Theorem failed_set_changes_nothing s i t e :
  res (List_set i t s) = throws e ->
  link_view (List_set i t s) = s
  /\ filter write_call (calls (List_set i t s)) = [].
Proof.
  by_bounds s i; intros H; [discriminate H | split; reflexivity].
Qed.

(** C7.  [size], [get] and [set] call neither [is_attached] nor
    [sync_if_needed] and never throw the [runtime_error] of the attachment
    check; those two calls are made by [verify_attached] alone. *)
Theorem no_implicit_attachment_check s i t :
  filter attachment_call (calls (List_size s)) = []
  /\ filter attachment_call (calls (List_get i s)) = []
  /\ filter attachment_call (calls (List_set i t s)) = []
  /\ (forall what, res (List_size s) <> throws (runtime_error what))
  /\ (forall what, res (List_get i s) <> throws (runtime_error what))
  /\ (forall what, res (List_set i t s) <> throws (runtime_error what))
  /\ filter attachment_call (calls (List_verify_attached s)) <> [].
Proof.
  split; [reflexivity | ].
  by_bounds s i; repeat apply conj; try reflexivity;
    try (intros what H; discriminate H);
    by_attachment s; intros H; discriminate H.
Qed.

(** A [size], a change from outside, then the rest: the rest runs on the
    changed link view. *)
Lemma size_then_mutation {A} (mutate : LV -> LV) (k : exec LV A) s :
  (List_size ;; external_mutation mutate ;; k) s
  = Outcome (res (k (mutate s))) (link_view (k (mutate s)))
            ((call_size, s) :: calls (k (mutate s))).
Proof. reflexivity. Qed.

(** C8.  [size] returns the size the link view has at the moment of the
    call: around a change made from outside, two calls return the size
    before and the size after, hence different values when the change
    alters the size; and the bounds check of [get] and [set] asks the link
    view as it is then and compares the index with that size. *)
Theorem size_is_queried_afresh (mutate : LV -> LV) s i t :
  List_size s = Outcome (returns (lv_size s)) s [(call_size, s)]
  /\ res ((n1 <- List_size ;; external_mutation mutate ;;
           n2 <- List_size ;; ret (n1, n2)) s)
     = returns (lv_size s, lv_size (mutate s))
  /\ (lv_size (mutate s) <> lv_size s ->
      res ((external_mutation mutate ;; List_size) s) <> res (List_size s))
  /\ calls ((List_size ;; external_mutation mutate ;;
             List_verify_valid_row i) s)
     = [(call_size, s); (call_size, mutate s)]
  /\ (res ((List_size ;; external_mutation mutate ;; List_get i) s)
      = returns (lv_get (mutate s) i)
      <-> i < lv_size (mutate s))
  /\ (res ((List_size ;; external_mutation mutate ;; List_set i t) s)
      = returns tt
      <-> i < lv_size (mutate s)).
Proof.
  split; [reflexivity | ]. split; [reflexivity | ].
  split; [intros Hne H; injection H as H; contradiction | ].
  rewrite !size_then_mutation. cbn [res calls].
  destruct (inside_or_outside (mutate s) i) as [Hi | Hi].
  - rewrite (verify_valid_row_inside _ i Hi), (get_inside _ i Hi),
      (set_inside _ i t Hi).
    repeat split; trivial.
  - rewrite (verify_valid_row_outside _ i Hi), (get_outside _ i Hi),
      (set_outside _ i t Hi).
    cbn [res calls]. repeat split; trivial; intros H;
      try discriminate H; lia.
Qed.

(** C9.  With [i] inside the link view when [set(i, t)] is called and
    when the [get(i)] after it is called, that [get] returns what the link
    view itself returns at [i] once it has been written with [t] at [i]:
    the same as making the two calls on the link view directly. *)
Theorem get_after_set s i t :
  0 <= i < lv_size s ->
  0 <= i < lv_size (lv_set s i t) ->
  res ((List_set i t ;; List_get i) s) = returns (lv_get (lv_set s i t) i)
  /\ res ((List_set i t ;; List_get i) s)
     = res ((m_link_view_set i t ;; m_link_view_get i) s)
  /\ link_view ((List_set i t ;; List_get i) s) = lv_set s i t.
Proof.
  intros [_ Hi] [_ Hi'].
  unfold bind at 1 2 4. rewrite (set_inside s i t Hi).
  cbn [res link_view calls]. rewrite (get_inside _ i Hi').
  repeat split.
Qed.

End Properties.

(** ** The properties with a premise, at the link views of the scenarios *)



(** [set(5, 42)] on three links. *)
Lemma failed_set_changes_nothing_at_three :
  res (List_set 5 42 three_links)
  = throws (out_of_range "Index 5 is outside of range 0...3.")
  /\ link_view (List_set 5 42 three_links) = three_links
  /\ filter write_call (calls (List_set 5 42 three_links)) = [].
Proof.
  split.
  - reflexivity.
  - apply (failed_set_changes_nothing three_links 5 42
             (out_of_range "Index 5 is outside of range 0...3.")).
    reflexivity.
Defined.

(** [set(1, 42)] then [get(1)] on three links. *)
Lemma get_after_set_at_three :
  (0 <= 1 < lv_size three_links
   /\ 0 <= 1 < lv_size (lv_set three_links 1 42))
  /\ res ((List_set 1 42 ;; List_get 1) three_links) = returns 42
  /\ res ((List_set 1 42 ;; List_get 1) three_links)
     = res ((m_link_view_set 1 42 ;; m_link_view_get 1) three_links)
  /\ link_view ((List_set 1 42 ;; List_get 1) three_links)
     = LinkList [10; 42; 12] true None.
Proof.
  assert (H1 : 0 <= 1 < lv_size three_links)
    by (split; [intros H; discriminate H | reflexivity]).
  assert (H2 : 0 <= 1 < lv_size (lv_set three_links 1 42))
    by (split; [intros H; discriminate H | reflexivity]).
  split.
  - split; assumption.
  - exact (get_after_set three_links 1 42 H1 H2).
Defined.

(** ** Further properties: composing the operations *)

Section Composition.

Context {LV Row : Type} {view : LinkView LV Row}.
Implicit Types (s : LV) (i j t : size_t) (o : operation).

(** What [run] logs and leaves is what the member function logs and leaves. *)
Lemma run_size s :
  run op_size s = Outcome (returns (val_size (lv_size s))) s [(call_size, s)].
Proof. reflexivity. Qed.

Lemma run_get_inside s i :
  i < lv_size s ->
  run (op_get i) s
  = Outcome (returns (val_row (lv_get s i))) s
            [(call_size, s); (call_get i, s)].
Proof.
  intros Hi. unfold run, bind. rewrite (get_inside s i Hi). reflexivity.
Qed.

Lemma run_get_outside s i :
  lv_size s <= i ->
  run (op_get i) s
  = Outcome (throws (out_of_range (out_of_range_what i (lv_size s)))) s
            [(call_size, s)].
Proof.
  intros Hi. unfold run, bind. rewrite (get_outside s i Hi). reflexivity.
Qed.

Lemma run_set_inside s i t :
  i < lv_size s ->
  run (op_set i t) s
  = Outcome (returns val_void) (lv_set s i t)
            [(call_size, s); (call_set i t, s)].
Proof.
  intros Hi. unfold run, bind. rewrite (set_inside s i t Hi). reflexivity.
Qed.

Lemma run_set_outside s i t :
  lv_size s <= i ->
  run (op_set i t) s
  = Outcome (throws (out_of_range (out_of_range_what i (lv_size s)))) s
            [(call_size, s)].
Proof.
  intros Hi. unfold run, bind. rewrite (set_outside s i t Hi). reflexivity.
Qed.

Lemma run_verify_attached_live s :
  lv_is_attached s = true ->
  run op_verify_attached s
  = Outcome (returns val_void) (lv_sync_if_needed s)
            [(call_is_attached, s); (call_sync_if_needed, s)].
Proof.
  intros Ha. unfold run, bind at 1. rewrite (verify_attached_live s Ha).
  reflexivity.
Qed.

Lemma run_verify_attached_gone s :
  lv_is_attached s = false ->
  run op_verify_attached s
  = Outcome (throws (runtime_error "Tableview is not attached")) s
            [(call_is_attached, s)].
Proof.
  intros Ha. unfold run, bind at 1. rewrite (verify_attached_gone s Ha).
  reflexivity.
Qed.

(** Handing back a function of the result adds no call and no change. *)
Lemma then_ret {A B} (m : exec LV A) (f : A -> B) s :
  (x <- m ;; ret (f x)) s
  = Outcome (match res (m s) with
             | returns a => returns (f a)
             | throws e => throws e
             end)
            (link_view (m s)) (calls (m s)).
Proof.
  unfold bind. destruct (res (m s)) as [a | e];
    cbn [res link_view calls ret]; rewrite ?app_nil_r; reflexivity.
Qed.

(** The sequence, unfolded by one operation. *)
Lemma run_all_cons o (os : list operation) s :
  run_all (o :: os) s
  = match res (run o s) with
    | returns v =>
        let rest := run_all os (link_view (run o s)) in
        Outcome (match res rest with
                 | returns vs => returns (v :: vs)
                 | throws e => throws e
                 end)
                (link_view rest) (calls (run o s) ++ calls rest)
    | throws e => Outcome (throws e) (link_view (run o s)) (calls (run o s))
    end.
Proof.
  cbn [run_all]. unfold bind at 1.
  destruct (res (run o s)) as [v | e]; [ | reflexivity ].
  cbv zeta. rewrite (then_ret (run_all os) (cons v)). reflexivity.
Qed.

Lemma run_calls_in_bounds o s : Forall call_in_bounds (calls (run o s)).
Proof.
  destruct o as [ | i | i t | ].
  - rewrite run_size. repeat constructor.
  - destruct (inside_or_outside s i) as [Hi | Hi];
      [rewrite (run_get_inside s i Hi) | rewrite (run_get_outside s i Hi)];
      repeat constructor; assumption.
  - destruct (inside_or_outside s i) as [Hi | Hi];
      [rewrite (run_set_inside s i t Hi) | rewrite (run_set_outside s i t Hi)];
      repeat constructor; assumption.
  - destruct (lv_is_attached s) eqn:Ha;
      [rewrite (run_verify_attached_live s Ha)
      | rewrite (run_verify_attached_gone s Ha)];
      repeat constructor.
Qed.

Lemma run_asks_only o s :
  asks_only o = true ->
  link_view (run o s) = s /\ filter changing_call (calls (run o s)) = [].
Proof.
  destruct o as [ | i | i t | ]; intros Ho; try discriminate Ho.
  - rewrite run_size. split; reflexivity.
  - destruct (inside_or_outside s i) as [Hi | Hi];
      [rewrite (run_get_inside s i Hi) | rewrite (run_get_outside s i Hi)];
      split; reflexivity.
Qed.

(** X1.  After [verify_attached] on an attached link view, [size], [get]
    and [set] work on the link view as [sync_if_needed] left it: [size]
    returns its size, and the bounds check of [get] and [set] compares the
    index with that size. *)
Theorem verify_attached_refreshes s i t :
  lv_is_attached s = true ->
  res ((List_verify_attached ;; List_size) s)
  = returns (lv_size (lv_sync_if_needed s))
  /\ (res ((List_verify_attached ;; List_get i) s)
      = returns (lv_get (lv_sync_if_needed s) i)
      <-> i < lv_size (lv_sync_if_needed s))
  /\ (res ((List_verify_attached ;; List_set i t) s) = returns tt
      <-> i < lv_size (lv_sync_if_needed s))
  /\ (i < lv_size (lv_sync_if_needed s) ->
      link_view ((List_verify_attached ;; List_set i t) s)
      = lv_set (lv_sync_if_needed s) i t)
  /\ (lv_size (lv_sync_if_needed s) <= i ->
      res ((List_verify_attached ;; List_get i) s)
      = throws (out_of_range
                  (out_of_range_what i (lv_size (lv_sync_if_needed s))))).
Proof.
  intros Ha. unfold bind at 1 2 3 4 5.
  rewrite (verify_attached_live s Ha). cbn [res link_view calls].
  split; [reflexivity | ].
  destruct (inside_or_outside (lv_sync_if_needed s) i) as [Hi | Hi].
  - rewrite (get_inside _ i Hi), (set_inside _ i t Hi). cbn [res link_view].
    repeat split; trivial; intros; lia.
  - rewrite (get_outside _ i Hi), (set_outside _ i t Hi). cbn [res link_view].
    repeat split; trivial; intros H; try discriminate H; lia.
Qed.

(** X2.  After [verify_attached] on a detached link view nothing that
    follows in the block is run: the block ends with the [runtime_error],
    the only call made is [is_attached], and the link view is untouched. *)
Theorem detached_ends_the_block {A} (k : exec LV A) s :
  lv_is_attached s = false ->
  (List_verify_attached ;; k) s
  = Outcome (throws (runtime_error "Tableview is not attached")) s
            [(call_is_attached, s)].
Proof.
  intros Ha. unfold bind at 1. rewrite (verify_attached_gone s Ha).
  reflexivity.
Qed.

(** X3.  On a link view of size 0 every [get] and every [set] throws
    [out_of_range], with the range [0...0] in the message, after the size
    query alone, and leaves the link view as it is. *)
Theorem empty_view_rejects_every_index s i t :
  lv_size s = 0 ->
  List_get i s
  = Outcome (throws (out_of_range
                       ("Index " ++ to_string i
                          ++ " is outside of range 0...0.")%string))
            s [(call_size, s)]
  /\ List_set i t s
     = Outcome (throws (out_of_range
                          ("Index " ++ to_string i
                             ++ " is outside of range 0...0.")%string))
               s [(call_size, s)].
Proof.
  intros Hs.
  assert (Hi : lv_size s <= i) by (rewrite Hs; apply N.le_0_l).
  rewrite (get_outside s i Hi), (set_outside s i t Hi), Hs.
  split; reflexivity.
Qed.

(** X4.  The indices that pass the bounds check form an initial segment:
    below an index that [get] or [set] accepts every index is accepted too,
    and above an index that is rejected every index is rejected. *)
Theorem accepted_indices_initial_segment s i j t :
  j <= i ->
  ((exists r, res (List_get i s) = returns r)
   \/ res (List_set i t s) = returns tt ->
   res (List_get j s) = returns (lv_get s j)
   /\ res (List_set j t s) = returns tt)
  /\ ((exists e, res (List_get j s) = throws e)
      \/ (exists e, res (List_set j t s) = throws e) ->
      res (List_get i s)
      = throws (out_of_range (out_of_range_what i (lv_size s)))
      /\ res (List_set i t s)
         = throws (out_of_range (out_of_range_what i (lv_size s)))).
Proof.
  intros Hji. split.
  - intros Hacc.
    assert (Hi : i < lv_size s).
    { destruct (inside_or_outside s i) as [Hi | Hi]; [exact Hi | ].
      rewrite (get_outside s i Hi), (set_outside s i t Hi) in Hacc.
      destruct Hacc as [[r H] | H]; discriminate H. }
    assert (Hj : j < lv_size s) by lia.
    rewrite (get_inside s j Hj), (set_inside s j t Hj). split; reflexivity.
  - intros Hrej.
    assert (Hj : lv_size s <= j).
    { destruct (inside_or_outside s j) as [Hj | Hj]; [ | exact Hj].
      rewrite (get_inside s j Hj), (set_inside s j t Hj) in Hrej.
      destruct Hrej as [[e H] | [e H]]; discriminate H. }
    assert (Hi : lv_size s <= i) by lia.
    rewrite (get_outside s i Hi), (set_outside s i t Hi). split; reflexivity.
Qed.

(** X5.  [get] and [set] accept the same indices, whatever the target, and
    where they throw they throw the same exception. *)
Theorem get_and_set_accept_alike s i t :
  ((exists r, res (List_get i s) = returns r)
   <-> res (List_set i t s) = returns tt)
  /\ (forall e, res (List_get i s) = throws e
                <-> res (List_set i t s) = throws e).
Proof.
  by_bounds s i; split.
  - split; eauto.
  - intros e. split; intros H; discriminate H.
  - split; [intros [r H] | intros H]; discriminate H.
  - intros e. split; intros H; injection H as <-; reflexivity.
Qed.

(** X6.  A [set] that throws does not undo a [set] made before it: with
    the first index inside and the second outside, the block ends with
    [out_of_range] for the second index and the link view keeps the first
    write. *)
Theorem failed_set_keeps_earlier_write s i t j u :
  i < lv_size s ->
  lv_size (lv_set s i t) <= j ->
  (List_set i t ;; List_set j u) s
  = Outcome (throws (out_of_range
                       (out_of_range_what j (lv_size (lv_set s i t)))))
            (lv_set s i t)
            [(call_size, s); (call_set i t, s); (call_size, lv_set s i t)].
Proof.
  intros Hi Hj. unfold bind at 1. rewrite (set_inside s i t Hi).
  cbn [res link_view calls]. rewrite (set_outside _ j u Hj). reflexivity.
Qed.

(** X7.  [verify_attached] makes no size query and no indexed access, never
    throws [out_of_range], and when it throws it leaves the link view as it
    is. *)
Theorem verify_attached_never_indexes s :
  filter indexing_call (calls (List_verify_attached s)) = []
  /\ (forall what, res (List_verify_attached s) <> throws (out_of_range what))
  /\ (forall e, res (List_verify_attached s) = throws e ->
                link_view (List_verify_attached s) = s).
Proof.
  by_attachment s; repeat split; try reflexivity;
    intros x H; discriminate H.
Qed.

(** X8.  Whatever sequence of operations a caller runs, every indexed read
    and write that reaches the link view is inside the link view as it is at
    that call. *)
Theorem run_all_calls_in_bounds (os : list operation) s :
  Forall call_in_bounds (calls (run_all os s)).
Proof.
  revert s. induction os as [ | o os IH]; intros s.
  - constructor.
  - rewrite run_all_cons.
    pose proof (run_calls_in_bounds o s) as Ho.
    destruct (res (run o s)) as [v | e]; cbn [calls]; [ | exact Ho ].
    apply Forall_app. split; [exact Ho | apply IH].
Qed.

(** X9.  A sequence of [size] and [get] operations, whether it ends with a
    value or with an exception, leaves the link view as it found it and
    makes no call that could change it. *)
Theorem asking_changes_nothing (os : list operation) s :
  forallb asks_only os = true ->
  link_view (run_all os s) = s
  /\ filter changing_call (calls (run_all os s)) = [].
Proof.
  revert s. induction os as [ | o os IH]; intros s Hos.
  - split; reflexivity.
  - cbn [forallb] in Hos. apply andb_prop in Hos as [Ho Hos].
    rewrite run_all_cons.
    destruct (run_asks_only o s Ho) as [Hview Hcalls].
    destruct (res (run o s)) as [v | e]; cbn [link_view calls].
    + rewrite Hview. destruct (IH s Hos) as [IHview IHcalls].
      rewrite filter_app, Hcalls, IHcalls. split; [exact IHview | reflexivity].
    + split; assumption.
Qed.

(** X10.  Reading a list of indices that are all inside the link view
    returns, in order, what the link view holds at each of them. *)
Theorem reading_inside_returns_all (indices : list size_t) s :
  Forall (fun i => i < lv_size s) indices ->
  res (run_all (map op_get indices) s)
  = returns (map (fun i => val_row (lv_get s i)) indices).
Proof.
  induction 1 as [ | i indices Hi _ IH].
  - reflexivity.
  - cbn [map]. rewrite run_all_cons, (run_get_inside s i Hi).
    cbn [res link_view]. rewrite IH. reflexivity.
Qed.

(** X11.  Reading a list of indices stops at the first index outside the
    link view: the exception names that index and the size, and the indices
    after it are never asked for. *)
Theorem reading_stops_at_first_outside (before after : list size_t) j s :
  Forall (fun i => i < lv_size s) before ->
  lv_size s <= j ->
  res (run_all (map op_get (before ++ j :: after)) s)
  = throws (out_of_range (out_of_range_what j (lv_size s)))
  /\ map fst (calls (run_all (map op_get (before ++ j :: after)) s))
     = flat_map (fun i => [call_size; call_get i]) before ++ [call_size].
Proof.
  intros Hbefore Hj. induction Hbefore as [ | i before Hi _ IH].
  - cbn [app map flat_map]. rewrite run_all_cons, (run_get_outside s j Hj).
    split; reflexivity.
  - cbn [app map flat_map]. rewrite run_all_cons, (run_get_inside s i Hi).
    cbn [res link_view calls]. destruct IH as [-> IHcalls].
    split; [reflexivity | ].
    rewrite map_app, IHcalls. reflexivity.
Qed.

End Composition.

(** ** The further properties with a premise, at the link views of the
    scenarios *)

(** A stale view of three links whose refreshed content has one: index 2 is
    inside before the refresh and outside after it. *)
Lemma verify_attached_refreshes_at_stale :
  lv_is_attached stale_links = true
  /\ res ((List_verify_attached ;; List_size) stale_links) = returns 1
  /\ (res ((List_verify_attached ;; List_get 2) stale_links)
      = returns (lv_get (lv_sync_if_needed stale_links) 2)
      <-> 2 < lv_size (lv_sync_if_needed stale_links))
  /\ (res ((List_verify_attached ;; List_set 2 0) stale_links) = returns tt
      <-> 2 < lv_size (lv_sync_if_needed stale_links))
  /\ (2 < lv_size (lv_sync_if_needed stale_links) ->
      link_view ((List_verify_attached ;; List_set 2 0) stale_links)
      = lv_set (lv_sync_if_needed stale_links) 2 0)
  /\ (lv_size (lv_sync_if_needed stale_links) <= 2 ->
      res ((List_verify_attached ;; List_get 2) stale_links)
      = throws (out_of_range "Index 2 is outside of range 0...1.")).
Proof.
  exact (conj eq_refl (verify_attached_refreshes stale_links 2 0 eq_refl)).
Defined.

(** A write guarded by [verify_attached], on the detached view. *)
Lemma detached_ends_the_block_at_detached :
  lv_is_attached detached_links = false
  /\ (List_verify_attached ;; List_set 1 42) detached_links
     = Outcome (throws (runtime_error "Tableview is not attached"))
               detached_links [(call_is_attached, detached_links)].
Proof.
  exact (conj eq_refl
              (detached_ends_the_block (List_set 1 42) detached_links eq_refl)).
Defined.

(** [get(0)] and [set(0, 42)] on no links. *)
Lemma empty_view_rejects_every_index_at_none :
  lv_size no_links = 0
  /\ List_get 0 no_links
     = Outcome (throws (out_of_range "Index 0 is outside of range 0...0."))
               no_links [(call_size, no_links)]
  /\ List_set 0 42 no_links
     = Outcome (throws (out_of_range "Index 0 is outside of range 0...0."))
               no_links [(call_size, no_links)].
Proof.
  exact (conj eq_refl (empty_view_rejects_every_index no_links 0 42 eq_refl)).
Defined.

(** Indices 1 and 2 of three links. *)
Lemma accepted_indices_initial_segment_at_three :
  1 <= 2
  /\ ((exists r, res (List_get 2 three_links) = returns r)
      \/ res (List_set 2 42 three_links) = returns tt ->
      res (List_get 1 three_links) = returns 11
      /\ res (List_set 1 42 three_links) = returns tt)
  /\ ((exists e, res (List_get 1 three_links) = throws e)
      \/ (exists e, res (List_set 1 42 three_links) = throws e) ->
      res (List_get 2 three_links)
      = throws (out_of_range "Index 2 is outside of range 0...3.")
      /\ res (List_set 2 42 three_links)
         = throws (out_of_range "Index 2 is outside of range 0...3.")).
Proof.
  assert (H : 1 <= 2) by (intros H; discriminate H).
  exact (conj H (accepted_indices_initial_segment three_links 2 1 42 H)).
Defined.

(** [set(1, 42)] then [set(5, 7)] on three links. *)
Lemma failed_set_keeps_earlier_write_at_three :
  (1 < lv_size three_links /\ lv_size (lv_set three_links 1 42) <= 5)
  /\ (List_set 1 42 ;; List_set 5 7) three_links
     = Outcome (throws (out_of_range "Index 5 is outside of range 0...3."))
               (LinkList [10; 42; 12] true None)
               [(call_size, three_links); (call_set 1 42, three_links);
                (call_size, LinkList [10; 42; 12] true None)].
Proof.
  assert (H1 : 1 < lv_size three_links) by reflexivity.
  assert (H2 : lv_size (lv_set three_links 1 42) <= 5)
    by (intros H; discriminate H).
  exact (conj (conj H1 H2)
              (failed_set_keeps_earlier_write three_links 1 42 5 7 H1 H2)).
Defined.

(** [size], [get(2)], [get(7)], [size] on three links: the third throws. *)
Lemma asking_changes_nothing_at_three :
  forallb asks_only [op_size; op_get 2; op_get 7; op_size] = true
  /\ link_view (run_all [op_size; op_get 2; op_get 7; op_size] three_links)
     = three_links
  /\ filter changing_call
       (calls (run_all [op_size; op_get 2; op_get 7; op_size] three_links))
     = [].
Proof.
  exact (conj eq_refl
              (asking_changes_nothing [op_size; op_get 2; op_get 7; op_size]
                                      three_links eq_refl)).
Defined.

(** Reading indices 2, 0, 1 of three links. *)
Lemma reading_inside_returns_all_at_three :
  Forall (fun i => i < lv_size three_links) [2; 0; 1]
  /\ res (run_all (map op_get [2; 0; 1]) three_links)
     = returns [val_row 12; val_row 10; val_row 11].
Proof.
  assert (H : Forall (fun i => i < lv_size three_links) [2; 0; 1])
    by (repeat constructor).
  exact (conj H (reading_inside_returns_all [2; 0; 1] three_links H)).
Defined.

(** Reading indices 0, 1, 3, 2 of three links. *)
Lemma reading_stops_at_first_outside_at_three :
  (Forall (fun i => i < lv_size three_links) [0; 1]
   /\ lv_size three_links <= 3)
  /\ res (run_all (map op_get ([0; 1] ++ 3 :: [2])) three_links)
     = throws (out_of_range "Index 3 is outside of range 0...3.")
  /\ map fst (calls (run_all (map op_get ([0; 1] ++ 3 :: [2])) three_links))
     = [call_size; call_get 0; call_size; call_get 1; call_size].
Proof.
  assert (H1 : Forall (fun i => i < lv_size three_links) [0; 1])
    by (repeat constructor).
  assert (H2 : lv_size three_links <= 3) by (intros H; discriminate H).
  exact (conj (conj H1 H2)
              (reading_stops_at_first_outside [0; 1] [2] 3 three_links H1 H2)).
Defined.

(** ** The accessor in memory: what an operation depends on *)

Section BoundView.

Context {LV Row : Type} {view : LinkView LV Row}.
Implicit Types (l : List) (h : memory LV) (o : operation) (a : address).





End BoundView.


Example set_in_memory_one :
  res (run (view := through list_one) (op_set 1 42) memory_one)
  = returns val_void
  /\ link_view (run (view := through list_one) (op_set 1 42) memory_one) 0%nat
     = LinkList [10; 42; 12] true None
  /\ link_view (run (view := through list_one) (op_set 1 42) memory_one) 1%nat
     = no_links.
Proof. repeat split. Qed.
